(** * agent-mtg: the card lookup tool (src/main.py)

    A shallow embedding of the two functions of [main.py]:
    [get_mtg_card_info] (the Lookup) and [mtg_card_tool] (the HTTP handler),
    with the Python operations they rely on: truthiness, [dict.get],
    subscripting, the [in] operator, exceptions and [try]/[except].

    Python values that come out of [json.loads] are modelled by [value];
    a [dict] is a [gmap string value].  The only effect of the program, the
    outbound [requests.get], is modelled by a log of calls threaded through
    a small state-and-exception monad; what the network answers is a
    parameter [net]. *)

From Stdlib Require Import ZArith String Floats.PrimFloat.
From stdpp Require Import gmap strings list fin_maps.

Set Warnings "-register-all".
Local Open Scope Z_scope.

(** ** Python values *)

(** What [json.loads] can return: [None], [bool], [int], [float], [str],
    [list] and [dict] with [str] keys. *)
Inductive value : Type :=
| VNone
| VBool (b : bool)
| VInt (n : Z)
| VFloat (f : float)
| VStr (s : string)
| VList (l : list value)
| VDict (d : gmap string value).

(** [bool(v)]: what [if v] and [not v] look at. *)
Definition truthy (v : value) : bool :=
  match v with
  | VNone => false
  | VBool b => b
  | VInt n => negb (n =? 0)%Z
  | VFloat f => negb (PrimFloat.eqb f 0%float)
  | VStr s => negb (String.eqb s "")
  | VList l => negb (Nat.eqb (length l) 0)
  | VDict d => negb (Nat.eqb (size d) 0)
  end.

(** A dict display [{k1: v1, ..., kn: vn}]: the items are stored from left
    to right, a later key overriding an earlier one. *)
Definition py_dict (items : list (string * value)) : gmap string value :=
  fold_left (fun d kv => <[kv.1 := kv.2]> d) items ∅.

(** ** Exceptions *)

(** The subclasses of [requests.exceptions.RequestException] that matter
    here.  [JSONDecodeError] is [requests.exceptions.JSONDecodeError], which
    [Response.json] raises on a body that is not JSON (requests >= 2.27). *)
Inductive request_exception : Type :=
| ConnectionError
| ReadTimeout
| HTTPError
| JSONDecodeError
| OtherRequestException.

Inductive exn : Type :=
| RequestException (e : request_exception)
| KeyError
| IndexError
| TypeError
| AttributeError.

Inductive result (A : Type) : Type :=
| Ok (a : A)
| Raise (e : exn).
Arguments Ok {A} a.
Arguments Raise {A} e.

(** ** Operations on values *)

(** [x.get(k)]: only a dict has the attribute [get]; a missing key gives
    [None]. *)
Definition dict_get (x : value) (k : string) : result value :=
  match x with
  | VDict d => Ok (default VNone (d !! k))
  | _ => Raise AttributeError
  end.

(** [x[k]] for a [str] key [k]. *)
Definition getitem_str (x : value) (k : string) : result value :=
  match x with
  | VDict d =>
      match d !! k with
      | Some v => Ok v
      | None => Raise KeyError
      end
  | _ => Raise TypeError
  end.

(** Python's index normalisation: a negative index counts from the end. *)
Definition py_index (len : nat) (i : Z) : option nat :=
  let j := if (i <? 0)%Z then i + Z.of_nat len else i in
  if (j <? 0)%Z || (Z.of_nat len <=? j)%Z then None else Some (Z.to_nat j).

(** [x[i]] for an [int] index [i]. *)
Definition getitem_int (x : value) (i : Z) : result value :=
  match x with
  | VDict _ => Raise KeyError
  | VList l =>
      match py_index (length l) i with
      | Some j => match l !! j with Some v => Ok v | None => Raise IndexError end
      | None => Raise IndexError
      end
  | VStr s =>
      match py_index (String.length s) i with
      | Some j =>
          match String.get j s with
          | Some c => Ok (VStr (String c EmptyString))
          | None => Raise IndexError
          end
      | None => Raise IndexError
      end
  | _ => Raise TypeError
  end.

(** [k == v] for a [str] [k]. *)
Definition str_eq (k : string) (v : value) : bool :=
  match v with
  | VStr s => String.eqb k s
  | _ => false
  end.

Fixpoint is_substring (p s : string) : bool :=
  String.prefix p s ||
  match s with
  | EmptyString => false
  | String _ s' => is_substring p s'
  end.

(** [k in x] for a [str] [k]: key membership in a dict, element membership
    in a list, substring test in a str; the other values are not iterable. *)
Definition contains_str (k : string) (x : value) : result bool :=
  match x with
  | VDict d => Ok (match d !! k with Some _ => true | None => false end)
  | VList l => Ok (existsb (str_eq k) l)
  | VStr s => Ok (is_substring k s)
  | _ => Raise TypeError
  end.

(** ** The outbound call and the monad *)

Record call : Type := { url : string; params : list (string * value) }.

(** A [requests.Response]: its status code, and what [json.loads] makes of
    its body ([None] when the body is not JSON). *)
Record response : Type := { status_code : Z; body_json : option value }.

(** A computation reads and extends the log of outbound calls, and returns
    or raises. *)
Definition M (A : Type) : Type := list call -> result A * list call.

Definition ret {A} (a : A) : M A := fun log => (Ok a, log).

Definition lift {A} (r : result A) : M A := fun log => (r, log).

Definition bind {A B} (m : M A) (k : A -> M B) : M B :=
  fun log =>
    match m log with
    | (Ok a, log') => k a log'
    | (Raise e, log') => (Raise e, log')
    end.

(** [try: m except ...]: [handler e] is the body of the first clause that
    matches [e], if any. *)
Definition try_except {A} (m : M A) (handler : exn -> option (M A)) : M A :=
  fun log =>
    match m log with
    | (Ok a, log') => (Ok a, log')
    | (Raise e, log') =>
        match handler e with
        | Some k => k log'
        | None => (Raise e, log')
        end
    end.

Declare Scope py_scope.
Delimit Scope py_scope with py.
Notation "x <- m ;; k" := (bind m (fun x => k))
  (at level 100, m at next level, right associativity) : py_scope.
Local Open Scope py_scope.

(** [response.raise_for_status()]: [HTTPError] on a 4xx or 5xx status. *)
Definition raise_for_status (r : response) : result unit :=
  if (400 <=? status_code r)%Z && (status_code r <? 600)%Z
  then Raise (RequestException HTTPError)
  else Ok tt.

(** [response.json()]. *)
Definition response_json (r : response) : result value :=
  match body_json r with
  | Some v => Ok v
  | None => Raise (RequestException JSONDecodeError)
  end.

(** ** The request and the response of the handler *)

(** A [flask.Request]: [get_json_silent] is [request.get_json(silent=True)]
    on a request with a JSON content type, [None] when the body does not
    parse. *)
Record request : Type :=
  { method : string; is_json : bool; get_json_silent : option value }.

(** [jsonify(v)]: a response whose body is the JSON document [v]. *)
Record json_response : Type := jsonify { payload : value }.

Section Program.

(** What the network answers to an outbound GET: a [RequestException]
    raised by [requests.get], or a response. *)
Variable net : call -> request_exception + response.

(** [str(v)] for a value [v] that is not a [str]. *)
Variable py_str : value -> string.

Definition requests_get (u : string) (ps : list (string * value)) : M response :=
  fun log =>
    let c := {| url := u; params := ps |} in
    (match net c with
     | inl e => Raise (RequestException e)
     | inr r => Ok r
     end, log ++ [c]).

(** A replacement field [{v}] of an f-string. *)
Definition format_value (v : value) : string :=
  match v with
  | VStr s => s
  | _ => py_str v
  end.

Definition base_url : string := "https://api.magicthegathering.io/v1/cards".

Definition get_mtg_card_info (card_name : value) : M value :=
  let params := [("name", card_name)] in
  try_except
    (response <- requests_get base_url params ;;
     _ <- lift (raise_for_status response) ;;
     data <- lift (response_json response) ;;
     cards <- lift (dict_get data "cards") ;;
     if negb (truthy cards) then ret VNone else
     cards <- lift (getitem_str data "cards") ;;
     card_data <- lift (getitem_int cards 0) ;;
     name <- lift (dict_get card_data "name") ;;
     mana_cost <- lift (dict_get card_data "manaCost") ;;
     type <- lift (dict_get card_data "type") ;;
     text <- lift (dict_get card_data "text") ;;
     power <- lift (dict_get card_data "power") ;;
     toughness <- lift (dict_get card_data "toughness") ;;
     image_url <- lift (dict_get card_data "imageUrl") ;;
     let info :=
       VDict (py_dict [("name", name); ("mana_cost", mana_cost);
                       ("type", type); ("text", text); ("power", power);
                       ("toughness", toughness); ("image_url", image_url)]) in
     ret info)
    (fun e =>
       match e with
       | RequestException _ => Some (ret VNone)
       | KeyError | IndexError => Some (ret VNone)
       | _ => None
       end).

Definition error_payload (msg : string) : value :=
  VDict (py_dict [("error", VStr msg)]).

Definition mtg_card_tool (request : request) : M (json_response * Z) :=
  if negb (String.eqb (method request) "POST") then
    ret (jsonify (error_payload "Invalid request method. Please use POST."), 405)
  else if negb (is_json request) then
    ret (jsonify (error_payload "Invalid content type. Please send a JSON payload."), 415)
  else
    let request_json := default VNone (get_json_silent request) in
    missing <- (if negb (truthy request_json) then ret true
                else found <- lift (contains_str "card_name" request_json) ;;
                     ret (negb found)) ;;
    if (missing : bool) then
      ret (jsonify (error_payload "Missing 'card_name' in JSON payload."), 400)
    else
      card_name <- lift (getitem_str request_json "card_name") ;;
      card_data <- get_mtg_card_info card_name ;;
      if truthy card_data then
        ret (jsonify card_data, 200)
      else
        ret (jsonify (error_payload
               ("Card '" +:+ format_value card_name +:+
                "' not found or API is unavailable.")), 404).

End Program.

(** ** The CardInfo dictionary *)

(** The shape of a [CardInfo]: the dict built by [get_mtg_card_info] from
    the seven values it read. *)
Definition card_info (name mana_cost type text power toughness image_url : value)
  : value :=
  VDict (py_dict [("name", name); ("mana_cost", mana_cost); ("type", type);
                  ("text", text); ("power", power); ("toughness", toughness);
                  ("image_url", image_url)]).

(** [d.get(k)] on a dict, as a value. *)
Definition field (d : gmap string value) (k : string) : value :=
  default VNone (d !! k).

Definition card_info_of (card : gmap string value) : value :=
  card_info (field card "name") (field card "manaCost") (field card "type")
            (field card "text") (field card "power") (field card "toughness")
            (field card "imageUrl").

Definition card_info_keys : gset string :=
  {[ "name"; "mana_cost"; "type"; "text"; "power"; "toughness"; "image_url" ]}.

(** The one outbound call of a lookup of [card_name]. *)
Definition lookup_call (card_name : value) : call :=
  {| url := base_url; params := [("name", card_name)] |}.

(** What the handler answers when the lookup of [card_name] finds nothing. *)
Definition not_found (py_str : value → string) (card_name : value)
  : json_response * Z :=
  (jsonify (error_payload ("Card '" +:+ format_value py_str card_name +:+
                           "' not found or API is unavailable.")), 404).

(** The seven fields read from the upstream card element. *)
Definition card_source_keys : gset string :=
  {[ "name"; "manaCost"; "type"; "text"; "power"; "toughness"; "imageUrl" ]}.

(** ** Sample requests and upstream answers *)

(** An upstream that answers every call with status [st] and a body that
    [json.loads] reads as [body]. *)
Definition answers (st : Z) (body : option value)
  : call → request_exception + response :=
  fun _ => inr {| status_code := st; body_json := body |}.

(** An upstream that cannot be reached. *)
Definition fails (e : request_exception) : call → request_exception + response :=
  fun _ => inl e.

Definition cards_body (cards : value) : value :=
  VDict (py_dict [("cards", cards)]).

Definition post_json (body : value) : request :=
  {| method := "POST"; is_json := true; get_json_silent := Some body |}.

Definition card_request (name : value) : request :=
  post_json (VDict (py_dict [("card_name", name)])).

Definition black_lotus : gmap string value :=
  py_dict [("name", VStr "Black Lotus"); ("manaCost", VStr "{0}");
           ("type", VStr "Artifact"); ("text", VStr "...");
           ("power", VNone); ("toughness", VNone);
           ("imageUrl", VStr "http://...")].

(** [str] on [None] and on the two booleans; the examples below format no
    other value that is not a [str]. *)
Definition str_of_constant (v : value) : string :=
  match v with
  | VNone => "None"
  | VBool true => "True"
  | VBool false => "False"
  | _ => ""
  end.

(** ** The two halves of the lookup *)

(** The [try] block of [get_mtg_card_info], on its own. *)
Definition lookup_try_block (net : call → request_exception + response)
    (card_name : value) : M value :=
  let params := [("name", card_name)] in
  (response <- requests_get net base_url params ;;
   _ <- lift (raise_for_status response) ;;
   data <- lift (response_json response) ;;
   cards <- lift (dict_get data "cards") ;;
   if negb (truthy cards) then ret VNone else
   cards <- lift (getitem_str data "cards") ;;
   card_data <- lift (getitem_int cards 0) ;;
   name <- lift (dict_get card_data "name") ;;
   mana_cost <- lift (dict_get card_data "manaCost") ;;
   type <- lift (dict_get card_data "type") ;;
   text <- lift (dict_get card_data "text") ;;
   power <- lift (dict_get card_data "power") ;;
   toughness <- lift (dict_get card_data "toughness") ;;
   image_url <- lift (dict_get card_data "imageUrl") ;;
   let info :=
     VDict (py_dict [("name", name); ("mana_cost", mana_cost);
                     ("type", type); ("text", text); ("power", power);
                     ("toughness", toughness); ("image_url", image_url)]) in
   ret info).

(** Its two [except] clauses. *)
Definition lookup_except (e : exn) : option (M value) :=
  match e with
  | RequestException _ => Some (ret VNone)
  | KeyError | IndexError => Some (ret VNone)
  | _ => None
  end.

(** ** Kinds of values *)

Definition is_dict (v : value) : bool :=
  match v with
  | VDict _ => true
  | _ => false
  end.

(** [None], [bool], [int] and [float]: the values that can be neither
    subscripted nor searched with [in]. *)
Definition is_scalar (v : value) : bool :=
  match v with
  | VNone | VBool _ | VInt _ | VFloat _ => true
  | _ => false
  end.

(** ** Unfolding the two functions *)

Ltac run_lookup :=
  unfold get_mtg_card_info, try_except, bind, lift, ret, requests_get,
    raise_for_status, response_json, lookup_call in *.

Ltac run_tool := unfold mtg_card_tool, bind, lift, ret in *.

Ltac run_try_block :=
  unfold lookup_try_block, bind, lift, ret, requests_get, raise_for_status,
    response_json, lookup_call, dict_get, getitem_str, getitem_int in *.

Ltac run_lookup_ops :=
  unfold get_mtg_card_info, try_except, bind, lift, ret, requests_get,
    raise_for_status, response_json, lookup_call, dict_get, getitem_str in *.

(** Follow the lookup down to the parsed body of the response. *)
Ltac walk_lookup net Hnet Hst Hjson :=
  run_lookup_ops;
  destruct (net _) as [?e|?r] eqn:Hnet; [try by simplify_eq/=|];
  destruct (_ && _) eqn:Hst; [try by simplify_eq/=|];
  destruct (body_json _) as [?data|] eqn:Hjson; [|try by simplify_eq/=].

(** Follow the handler down to the result of the lookup. *)
Ltac walk_tool req net log Hm Hj Hbody Ht Hin Hkey Hret :=
  run_tool;
  destruct (String.eqb_spec (method req) "POST") as [Hm|Hm]; cbn [negb] in *;
  [destruct (is_json req) eqn:Hj; cbn [negb] in *;
   [destruct (get_json_silent req) as [?v|] eqn:Hbody;
    cbn [default from_option id] in *;
    [destruct (truthy _) eqn:Ht; cbn [negb] in *;
     [destruct (contains_str _ _) as [[|]|] eqn:Hin; cbn [negb] in *;
      [destruct (getitem_str _ _) as [?cn|] eqn:Hkey;
       [destruct (get_mtg_card_info net _ log) as [[?card_data|] ?log1] eqn:Hret
       |]
      | |]
     |]
    |]
   |]
  |].

(** ** Facts about values *)

Lemma truthy_dict_lookup (d : gmap string value) k v :
  d !! k = Some v → truthy (VDict d) = true.
Proof.
  intros Hk. cbn. apply negb_true_iff, Nat.eqb_neq.
  apply (map_size_ne_0_lookup_2 d k). by exists v.
Qed.

Lemma truthy_dict_insert (d : gmap string value) k v :
  truthy (VDict (<[k := v]> d)) = true.
Proof. apply (truthy_dict_lookup _ k v), lookup_insert_eq. Qed.

Lemma card_info_truthy a b c d e f g : truthy (card_info a b c d e f g) = true.
Proof. unfold card_info, py_dict. cbn [fold_left]. apply truthy_dict_insert. Qed.

Lemma card_info_dom a b c d e f g :
  ∃ m, card_info a b c d e f g = VDict m ∧ dom m = card_info_keys.
Proof.
  eexists. split; [reflexivity|].
  unfold py_dict, card_info_keys. cbn [fold_left fst snd].
  rewrite !dom_insert_L, dom_empty_L. set_solver.
Qed.

Lemma card_info_lookup a b c d e f g :
  ∃ m, card_info a b c d e f g = VDict m ∧
       m !! "name" = Some a ∧ m !! "mana_cost" = Some b ∧
       m !! "type" = Some c ∧ m !! "text" = Some d ∧
       m !! "power" = Some e ∧ m !! "toughness" = Some f ∧
       m !! "image_url" = Some g.
Proof.
  eexists. split; [reflexivity|].
  unfold py_dict. cbn [fold_left fst snd].
  repeat split; by simplify_map_eq.
Qed.

(** ** The lookup, case by case *)

Section LookupFacts.

Variable net : call → request_exception + response.

(** Every lookup makes exactly one outbound call, whatever comes of it. *)
Lemma lookup_log cn log :
  (get_mtg_card_info net cn log).2 = log ++ [lookup_call cn].
Proof.
  run_lookup. repeat (case_match; simplify_eq/=); reflexivity.
Qed.

Lemma lookup_network_failure cn log e :
  net (lookup_call cn) = inl e →
  get_mtg_card_info net cn log = (Ok VNone, log ++ [lookup_call cn]).
Proof. intros Hnet. run_lookup. by rewrite Hnet. Qed.

Lemma lookup_http_error cn log r :
  net (lookup_call cn) = inr r →
  400 ≤ status_code r < 600 →
  get_mtg_card_info net cn log = (Ok VNone, log ++ [lookup_call cn]).
Proof.
  intros Hnet [Hlo Hhi]. run_lookup. rewrite Hnet.
  apply Z.leb_le in Hlo. apply Z.ltb_lt in Hhi. by rewrite Hlo, Hhi.
Qed.

Lemma lookup_bad_json cn log r :
  net (lookup_call cn) = inr r →
  body_json r = None →
  get_mtg_card_info net cn log = (Ok VNone, log ++ [lookup_call cn]).
Proof.
  intros Hnet Hbody. run_lookup. rewrite Hnet, Hbody.
  by destruct (_ && _).
Qed.

Lemma lookup_cards_falsy cn log r d :
  net (lookup_call cn) = inr r →
  body_json r = Some (VDict d) →
  truthy (field d "cards") = false →
  get_mtg_card_info net cn log = (Ok VNone, log ++ [lookup_call cn]).
Proof.
  intros Hnet Hbody Hcards. run_lookup. rewrite Hnet, Hbody.
  destruct (_ && _); [done|]. cbn. unfold field in Hcards. by rewrite Hcards.
Qed.

Lemma lookup_found cn log r d card rest :
  net (lookup_call cn) = inr r →
  raise_for_status r = Ok tt →
  body_json r = Some (VDict d) →
  d !! "cards" = Some (VList (VDict card :: rest)) →
  get_mtg_card_info net cn log = (Ok (card_info_of card), log ++ [lookup_call cn]).
Proof.
  intros Hnet Hst Hbody Hcards. run_lookup. rewrite Hnet.
  destruct (_ && _); [done|]. rewrite Hbody. cbn. by rewrite Hcards.
Qed.

(** What a lookup can return: [None], or a [CardInfo] read off a dict. *)
Lemma lookup_returns cn log v log' :
  get_mtg_card_info net cn log = (Ok v, log') →
  v = VNone ∨ ∃ card, v = card_info_of card.
Proof.
  run_lookup. unfold dict_get, getitem_str, getitem_int.
  intros H. repeat (case_match; simplify_eq/=); eauto.
Qed.

(** What a lookup can raise: only what its two [except] clauses miss. *)
Lemma lookup_raises cn log e log' :
  get_mtg_card_info net cn log = (Raise e, log') →
  e = TypeError ∨ e = AttributeError.
Proof.
  run_lookup. unfold dict_get, getitem_str, getitem_int.
  intros H. repeat (case_match; simplify_eq/=); eauto.
Qed.

End LookupFacts.

(** ** The handler, case by case *)

Section HandlerFacts.

Variable net : call → request_exception + response.
Variable py_str : value → string.

Lemma raise_for_status_ok r :
  ¬ (400 ≤ status_code r < 600) → raise_for_status r = Ok tt.
Proof.
  intros Hst. unfold raise_for_status.
  destruct (400 <=? status_code r)%Z eqn:Hlo; [|done].
  destruct (status_code r <? 600)%Z eqn:Hhi; [|done].
  apply Z.leb_le in Hlo. apply Z.ltb_lt in Hhi. lia.
Qed.

(** A request that passes the three checks: the handler's answer is decided
    by the lookup of the submitted value. *)
Lemma tool_with_card_name req b cn log :
  method req = "POST" →
  is_json req = true →
  get_json_silent req = Some (VDict b) →
  b !! "card_name" = Some cn →
  mtg_card_tool net py_str req log =
    match get_mtg_card_info net cn log with
    | (Ok card_data, log') =>
        (Ok (if truthy card_data then (jsonify card_data, 200)
             else not_found py_str cn), log')
    | (Raise e, log') => (Raise e, log')
    end.
Proof.
  intros Hm Hj Hbody Hkey. run_tool. rewrite Hm, Hj, Hbody. cbn.
  change (negb (size b =? 0)%nat) with (truthy (VDict b)).
  rewrite (truthy_dict_lookup b _ _ Hkey). cbn. rewrite Hkey. cbn.
  destruct (get_mtg_card_info net cn log) as [[card_data|e] log']; [|done].
  by destruct (truthy card_data).
Qed.

(** The bodies for which the handler answers 400: one that does not parse,
    a falsy one, a dict without the key, a list without the element, a str
    without the substring. *)
Lemma tool_missing_card_name req log :
  method req = "POST" →
  is_json req = true →
  match get_json_silent req with
  | None => True
  | Some v =>
      truthy v = false ∨
      match v with
      | VDict d => d !! "card_name" = None
      | VList l => existsb (str_eq "card_name") l = false
      | VStr s => is_substring "card_name" s = false
      | _ => False
      end
  end →
  mtg_card_tool net py_str req log =
    (Ok (jsonify (error_payload "Missing 'card_name' in JSON payload."), 400), log).
Proof.
  intros Hm Hj Hbody. run_tool. rewrite Hm, Hj.
  destruct (get_json_silent req) as [v|]; [|done].
  cbn -[truthy contains_str error_payload].
  destruct Hbody as [Hf|Hbody]; [by rewrite Hf|].
  destruct (truthy v); [|done]. cbn [negb].
  destruct v; try done; cbn; by rewrite Hbody.
Qed.

End HandlerFacts.

(** * The claims *)

(** C1 (the code departs from the claim). The claim: for every upstream
    behaviour, a malformed ['cards'] included, the lookup returns a CardInfo
    or [None] and never raises. Here the upstream answers 200 with the body
    [{"cards": 5}]: [data.get('cards')] is truthy, [data['cards'][0]]
    subscripts an [int], and the [TypeError] passes both [except] clauses
    and reaches the caller. *)
Theorem lookup_raises_on_malformed_cards :
  get_mtg_card_info (answers 200 (Some (cards_body (VInt 5))))
                    (VStr "Black Lotus") [] =
    (Raise TypeError, [lookup_call (VStr "Black Lotus")]).
Proof. reflexivity. Qed.

(** C4 (the code departs from the claim). The claim: a POST request with a
    JSON content type whose parsed body lacks the key ['card_name'] is
    answered 400. Here the body is the JSON document [5]: [not request_json]
    is false, ["card_name" not in request_json] asks an [int] for membership,
    and the [TypeError] leaves the handler; no response is built. *)
Theorem tool_raises_on_number_body net py_str log :
  mtg_card_tool net py_str (post_json (VInt 5)) log = (Raise TypeError, log).
Proof. reflexivity. Qed.

(** C7. Every request whose method is not POST is answered 405 with the
    body [{"error": "Invalid request method. Please use POST."}], whatever
    its content type and body; nothing else is looked at and no outbound
    call is made. *)
Theorem non_post_gives_405 net py_str req log :
  method req ≠ "POST" →
  mtg_card_tool net py_str req log =
    (Ok (jsonify (VDict {[ "error" :=
           VStr "Invalid request method. Please use POST." ]}), 405), log).
Proof.
  intros Hm. run_tool.
  destruct (String.eqb_spec (method req) "POST") as [|_]; done.
Qed.

Lemma non_post_gives_405_witness :
  mtg_card_tool (fails ReadTimeout) str_of_constant
    {| method := "GET"; is_json := false; get_json_silent := None |} [] =
    (Ok (jsonify (VDict {[ "error" :=
           VStr "Invalid request method. Please use POST." ]}), 405), []).
Proof. apply non_post_gives_405. cbn. discriminate. Defined.

(** C8. Every POST request whose content type is not JSON is answered 415
    with the body [{"error": "Invalid content type. Please send a JSON
    payload."}], whatever its body, which is not read; the same request
    sent with another method is answered 405, the method being checked
    first. *)
Theorem non_json_post_gives_415 net py_str req log :
  method req = "POST" →
  is_json req = false →
  mtg_card_tool net py_str req log =
    (Ok (jsonify (VDict {[ "error" :=
           VStr "Invalid content type. Please send a JSON payload." ]}), 415),
     log)
  ∧ ∀ m body, m ≠ "POST" →
      ∃ r, mtg_card_tool net py_str
             {| method := m; is_json := false; get_json_silent := body |} log =
             (Ok (r, 405), log).
Proof.
  intros Hm Hj. split.
  - run_tool. by rewrite Hm, Hj.
  - intros m body Hne. eexists. run_tool. cbn [method].
    destruct (String.eqb_spec m "POST") as [|_]; done.
Qed.

Lemma non_json_post_gives_415_witness :
  mtg_card_tool (fails ReadTimeout) str_of_constant
    {| method := "POST"; is_json := false; get_json_silent := None |} [] =
    (Ok (jsonify (VDict {[ "error" :=
           VStr "Invalid content type. Please send a JSON payload." ]}), 415),
     []).
Proof. by apply non_json_post_gives_415. Defined.

(** C2. A POST JSON request carries the key ['card_name'], and the upstream
    answers 2xx with a JSON object whose ['cards'] is a non-empty array with
    the card object [card] first: the handler answers 200 with a body whose
    fields [name], [mana_cost], [type], [text], [power], [toughness] and
    [image_url] are the card's [name], [manaCost], [type], [text], [power],
    [toughness] and [imageUrl], a field the card lacks being [None] (JSON
    null). One outbound call is made. *)
Theorem found_card_gives_200 net py_str req b cn log r d card rest :
  method req = "POST" →
  is_json req = true →
  get_json_silent req = Some (VDict b) →
  b !! "card_name" = Some cn →
  net (lookup_call cn) = inr r →
  200 ≤ status_code r < 300 →
  body_json r = Some (VDict d) →
  d !! "cards" = Some (VList (VDict card :: rest)) →
  ∃ info : gmap string value,
    mtg_card_tool net py_str req log =
      (Ok (jsonify (VDict info), 200), log ++ [lookup_call cn]) ∧
    info !! "name" = Some (default VNone (card !! "name")) ∧
    info !! "mana_cost" = Some (default VNone (card !! "manaCost")) ∧
    info !! "type" = Some (default VNone (card !! "type")) ∧
    info !! "text" = Some (default VNone (card !! "text")) ∧
    info !! "power" = Some (default VNone (card !! "power")) ∧
    info !! "toughness" = Some (default VNone (card !! "toughness")) ∧
    info !! "image_url" = Some (default VNone (card !! "imageUrl")).
Proof.
  intros Hm Hj Hbody Hkey Hnet Hst Hjson Hcards.
  destruct (card_info_lookup
              (field card "name") (field card "manaCost") (field card "type")
              (field card "text") (field card "power") (field card "toughness")
              (field card "imageUrl")) as (info & Hinfo & Hfields).
  exists info. split; [|exact Hfields].
  rewrite (tool_with_card_name net py_str req b cn log Hm Hj Hbody Hkey).
  rewrite (lookup_found net cn log r d card rest Hnet
             (raise_for_status_ok r ltac:(lia)) Hjson Hcards).
  unfold card_info_of. by rewrite card_info_truthy, Hinfo.
Qed.

Lemma found_card_gives_200_witness :
  ∃ info : gmap string value,
    mtg_card_tool (answers 200 (Some (cards_body (VList [VDict black_lotus]))))
      str_of_constant (card_request (VStr "Black Lotus")) [] =
      (Ok (jsonify (VDict info), 200), [lookup_call (VStr "Black Lotus")]) ∧
    info !! "name" = Some (VStr "Black Lotus") ∧
    info !! "mana_cost" = Some (VStr "{0}") ∧
    info !! "type" = Some (VStr "Artifact") ∧
    info !! "text" = Some (VStr "...") ∧
    info !! "power" = Some VNone ∧
    info !! "toughness" = Some VNone ∧
    info !! "image_url" = Some (VStr "http://...").
Proof.
  apply (found_card_gives_200
           (answers 200 (Some (cards_body (VList [VDict black_lotus]))))
           str_of_constant (card_request (VStr "Black Lotus"))
           (py_dict [("card_name", VStr "Black Lotus")]) (VStr "Black Lotus") []
           {| status_code := 200;
              body_json := Some (cards_body (VList [VDict black_lotus])) |}
           (py_dict [("cards", VList [VDict black_lotus])]) black_lotus []);
    first [reflexivity | cbn; lia].
Defined.

(** C3. A POST JSON request carries the key ['card_name']. Against an
    upstream that answers with an empty ['cards'] array, one that cannot be
    reached, and one whose body is not JSON, the handler gives one and the
    same answer: 404 with the body [{"error": "Card '<name>' not found or
    API is unavailable."}], where a [str] name is put in as it is. *)
Theorem not_found_causes_indistinguishable
    net1 net2 net3 py_str req b cn log r1 d e r3 :
  method req = "POST" →
  is_json req = true →
  get_json_silent req = Some (VDict b) →
  b !! "card_name" = Some cn →
  net1 (lookup_call cn) = inr r1 →
  body_json r1 = Some (VDict d) →
  d !! "cards" = Some (VList []) →
  net2 (lookup_call cn) = inl e →
  net3 (lookup_call cn) = inr r3 →
  body_json r3 = None →
  ∃ answer,
    answer =
      (Ok (jsonify (VDict {[ "error" :=
             VStr ("Card '" +:+ format_value py_str cn +:+
                   "' not found or API is unavailable.") ]}), 404),
       log ++ [lookup_call cn]) ∧
    mtg_card_tool net1 py_str req log = answer ∧
    mtg_card_tool net2 py_str req log = answer ∧
    mtg_card_tool net3 py_str req log = answer ∧
    ∀ name, cn = VStr name → format_value py_str cn = name.
Proof.
  intros Hm Hj Hbody Hkey Hnet1 Hjson1 Hcards Hnet2 Hnet3 Hjson3.
  eexists. split; [reflexivity|].
  rewrite !(tool_with_card_name _ py_str req b cn log Hm Hj Hbody Hkey).
  rewrite (lookup_cards_falsy net1 cn log r1 d Hnet1 Hjson1)
    by (unfold field; by rewrite Hcards).
  rewrite (lookup_network_failure net2 cn log e Hnet2).
  rewrite (lookup_bad_json net3 cn log r3 Hnet3 Hjson3).
  repeat split. by intros name ->.
Qed.

Lemma not_found_causes_indistinguishable_witness :
  ∃ answer,
    answer =
      (Ok (jsonify (VDict {[ "error" :=
             VStr "Card 'Nonexistent Card XYZ' not found or API is unavailable." ]}),
           404),
       [lookup_call (VStr "Nonexistent Card XYZ")]) ∧
    mtg_card_tool (answers 200 (Some (cards_body (VList [])))) str_of_constant
      (card_request (VStr "Nonexistent Card XYZ")) [] = answer ∧
    mtg_card_tool (fails ConnectionError) str_of_constant
      (card_request (VStr "Nonexistent Card XYZ")) [] = answer ∧
    mtg_card_tool (answers 200 None) str_of_constant
      (card_request (VStr "Nonexistent Card XYZ")) [] = answer ∧
    ∀ name, VStr "Nonexistent Card XYZ" = VStr name →
            format_value str_of_constant (VStr "Nonexistent Card XYZ") = name.
Proof.
  apply (not_found_causes_indistinguishable
           (answers 200 (Some (cards_body (VList []))))
           (fails ConnectionError) (answers 200 None) str_of_constant
           (card_request (VStr "Nonexistent Card XYZ"))
           (py_dict [("card_name", VStr "Nonexistent Card XYZ")])
           (VStr "Nonexistent Card XYZ") []
           {| status_code := 200; body_json := Some (cards_body (VList [])) |}
           (py_dict [("cards", VList [])]) ConnectionError
           {| status_code := 200; body_json := None |});
    reflexivity.
Defined.

(** C5. A POST JSON request whose body has the key ['card_name'], with any
    value, the empty string included, is not answered 400: the handler looks
    that value up, with one outbound call, and its answer is the one the
    lookup decides (200 or 404). *)
Theorem card_name_present_invokes_lookup net py_str req b cn log :
  method req = "POST" →
  is_json req = true →
  get_json_silent req = Some (VDict b) →
  b !! "card_name" = Some cn →
  mtg_card_tool net py_str req log =
    match get_mtg_card_info net cn log with
    | (Ok card_data, log') =>
        (Ok (if truthy card_data then (jsonify card_data, 200)
             else (jsonify (VDict {[ "error" :=
                      VStr ("Card '" +:+ format_value py_str cn +:+
                            "' not found or API is unavailable.") ]}), 404)),
         log')
    | (Raise e, log') => (Raise e, log')
    end
  ∧ (mtg_card_tool net py_str req log).2 = log ++ [lookup_call cn]
  ∧ ∀ resp, (mtg_card_tool net py_str req log).1 = Ok resp → resp.2 ≠ 400.
Proof.
  intros Hm Hj Hbody Hkey.
  rewrite (tool_with_card_name net py_str req b cn log Hm Hj Hbody Hkey).
  pose proof (lookup_log net cn log) as Hlog.
  destruct (get_mtg_card_info net cn log) as [[card_data|e] log'];
    cbn in Hlog; subst log'; (split; [reflexivity|]); (split; [reflexivity|]).
  - intros resp [= <-]. by destruct (truthy card_data).
  - intros resp [=].
Qed.

Lemma card_name_present_invokes_lookup_witness :
  (mtg_card_tool (answers 200 (Some (cards_body (VList [])))) str_of_constant
     (card_request (VStr "")) []).2 = [lookup_call (VStr "")]
  ∧ ∀ resp,
      (mtg_card_tool (answers 200 (Some (cards_body (VList [])))) str_of_constant
         (card_request (VStr "")) []).1 = Ok resp →
      resp.2 ≠ 400.
Proof.
  apply (card_name_present_invokes_lookup
           (answers 200 (Some (cards_body (VList []))))
           str_of_constant (card_request (VStr ""))
           (py_dict [("card_name", VStr "")]) (VStr "") []);
    reflexivity.
Defined.

(** C6. A POST JSON request carries the key ['card_name'] and the lookup of
    its value returns [None]: the handler answers 404 with the body
    [{"error": "Card '<card_name>' not found or API is unavailable."}], the
    submitted value formatted into the message, a [str] as it is. *)
Theorem no_result_gives_404 net py_str req b cn log log' :
  method req = "POST" →
  is_json req = true →
  get_json_silent req = Some (VDict b) →
  b !! "card_name" = Some cn →
  get_mtg_card_info net cn log = (Ok VNone, log') →
  mtg_card_tool net py_str req log =
    (Ok (jsonify (VDict {[ "error" :=
           VStr ("Card '" +:+ format_value py_str cn +:+
                 "' not found or API is unavailable.") ]}), 404), log')
  ∧ ∀ name, cn = VStr name → format_value py_str cn = name.
Proof.
  intros Hm Hj Hbody Hkey Hlookup.
  rewrite (tool_with_card_name net py_str req b cn log Hm Hj Hbody Hkey).
  rewrite Hlookup. split; [reflexivity|]. by intros name ->.
Qed.

Lemma no_result_gives_404_witness :
  mtg_card_tool (answers 503 None) str_of_constant
    (card_request (VStr "Black Lotus")) [] =
    (Ok (jsonify (VDict {[ "error" :=
           VStr "Card 'Black Lotus' not found or API is unavailable." ]}), 404),
     [lookup_call (VStr "Black Lotus")]).
Proof.
  apply (no_result_gives_404 (answers 503 None) str_of_constant
           (card_request (VStr "Black Lotus"))
           (py_dict [("card_name", VStr "Black Lotus")])
           (VStr "Black Lotus") [] [lookup_call (VStr "Black Lotus")]);
    reflexivity.
Defined.

(** C9. Every value other than [None] that the lookup returns, and so every
    body the handler sends with status 200, is a dict with exactly the seven
    keys [name], [mana_cost], [type], [text], [power], [toughness] and
    [image_url]; when the lookup reads the card object [card], a field that
    [card] lacks is in the dict with the value [None] (JSON null). *)
Theorem card_info_has_exactly_seven_keys :
  (∀ net cn log v log',
     get_mtg_card_info net cn log = (Ok v, log') →
     v ≠ VNone →
     ∃ m : gmap string value, v = VDict m ∧ dom m = card_info_keys)
  ∧ (∀ net py_str req log body log',
       mtg_card_tool net py_str req log = (Ok (jsonify body, 200), log') →
       ∃ m : gmap string value, body = VDict m ∧ dom m = card_info_keys)
  ∧ (∀ net cn log r d card rest,
       net (lookup_call cn) = inr r →
       ¬ (400 ≤ status_code r < 600) →
       body_json r = Some (VDict d) →
       d !! "cards" = Some (VList (VDict card :: rest)) →
       ∃ m : gmap string value,
         get_mtg_card_info net cn log = (Ok (VDict m), log ++ [lookup_call cn]) ∧
         dom m = card_info_keys ∧
         (card !! "name" = None → m !! "name" = Some VNone) ∧
         (card !! "manaCost" = None → m !! "mana_cost" = Some VNone) ∧
         (card !! "type" = None → m !! "type" = Some VNone) ∧
         (card !! "text" = None → m !! "text" = Some VNone) ∧
         (card !! "power" = None → m !! "power" = Some VNone) ∧
         (card !! "toughness" = None → m !! "toughness" = Some VNone) ∧
         (card !! "imageUrl" = None → m !! "image_url" = Some VNone)).
Proof.
  assert (Hlookup : ∀ net cn log v log',
            get_mtg_card_info net cn log = (Ok v, log') →
            v ≠ VNone →
            ∃ m : gmap string value, v = VDict m ∧ dom m = card_info_keys).
  { intros net cn log v log' Hret Hv.
    destruct (lookup_returns net cn log v log' Hret) as [->|[card ->]]; [done|].
    exact (card_info_dom (field card "name") (field card "manaCost")
             (field card "type") (field card "text") (field card "power")
             (field card "toughness") (field card "imageUrl")). }
  split; [exact Hlookup|]. split.
  - intros net py_str req log body log' Htool. run_tool.
    destruct (negb (String.eqb (method req) "POST")); [by simplify_eq|].
    destruct (negb (is_json req)); [by simplify_eq|].
    destruct (negb (truthy (default VNone (get_json_silent req)))).
    { by simplify_eq. }
    destruct (contains_str _ _) as [found|]; [|by simplify_eq].
    destruct (negb found); [by simplify_eq|].
    destruct (getitem_str _ _) as [cn|]; [|by simplify_eq].
    destruct (get_mtg_card_info net cn log) as [[card_data|] log1] eqn:Hret;
      [|by simplify_eq].
    destruct (truthy card_data) eqn:Htruthy; [|by simplify_eq].
    simplify_eq. apply (Hlookup net cn log body log' Hret).
    by intros ->.
  - intros net cn log r d card rest Hnet Hst Hjson Hcards.
    rewrite (lookup_found net cn log r d card rest Hnet
               (raise_for_status_ok r Hst) Hjson Hcards).
    unfold card_info_of.
    destruct (card_info_dom
                (field card "name") (field card "manaCost") (field card "type")
                (field card "text") (field card "power")
                (field card "toughness") (field card "imageUrl"))
      as (m & Hm & Hdom).
    destruct (card_info_lookup
                (field card "name") (field card "manaCost") (field card "type")
                (field card "text") (field card "power")
                (field card "toughness") (field card "imageUrl"))
      as (m' & Hm' & H1 & H2 & H3 & H4 & H5 & H6 & H7).
    rewrite Hm in Hm'. simplify_eq. exists m'. rewrite Hm.
    split; [done|]. split; [done|]. unfold field in *.
    repeat split; intros Hnone; rewrite Hnone in *; done.
Qed.

Lemma card_info_has_exactly_seven_keys_witness :
  ∃ m : gmap string value,
    card_info_of black_lotus = VDict m ∧ dom m = card_info_keys.
Proof.
  apply (proj1 card_info_has_exactly_seven_keys
           (answers 200 (Some (cards_body (VList [VDict black_lotus]))))
           (VStr "Black Lotus") [] (card_info_of black_lotus)
           [lookup_call (VStr "Black Lotus")]);
    [reflexivity | discriminate].
Defined.

(** C10. The upstream ['cards'] array is not empty and its first element is
    an object with none of the seven fields that are read, the empty object
    for one: the handler still answers 200, with a body that has the seven
    keys, each with the value [None] (JSON null). The dict that the lookup
    builds is never empty, so it is truthy and the success branch is
    taken. *)
Theorem card_without_fields_gives_200 net py_str req b cn log r d card rest :
  method req = "POST" →
  is_json req = true →
  get_json_silent req = Some (VDict b) →
  b !! "card_name" = Some cn →
  net (lookup_call cn) = inr r →
  ¬ (400 ≤ status_code r < 600) →
  body_json r = Some (VDict d) →
  d !! "cards" = Some (VList (VDict card :: rest)) →
  (∀ k, k ∈ card_source_keys → card !! k = None) →
  ∃ info : gmap string value,
    mtg_card_tool net py_str req log =
      (Ok (jsonify (VDict info), 200), log ++ [lookup_call cn]) ∧
    dom info = card_info_keys ∧
    (∀ k, k ∈ card_info_keys → info !! k = Some VNone) ∧
    truthy (VDict info) = true.
Proof.
  intros Hm Hj Hbody Hkey Hnet Hst Hjson Hcards Hnone.
  rewrite (tool_with_card_name net py_str req b cn log Hm Hj Hbody Hkey).
  rewrite (lookup_found net cn log r d card rest Hnet
             (raise_for_status_ok r Hst) Hjson Hcards).
  unfold card_info_of, field.
  rewrite !Hnone by (unfold card_source_keys; set_solver).
  rewrite card_info_truthy. cbn [default from_option id].
  eexists. split; [reflexivity|].
  split; [|split].
  - unfold py_dict, card_info_keys. cbn [fold_left fst snd].
    rewrite !dom_insert_L, dom_empty_L. set_solver.
  - intros k Hk. unfold card_info_keys in Hk. unfold py_dict.
    cbn [fold_left fst snd]. set_unfold in Hk.
    destruct Hk as [Hk|Hk]; [|subst k; by simplify_map_eq].
    repeat (destruct Hk as [Hk|Hk]; [|subst k; by simplify_map_eq]).
    subst k. by simplify_map_eq.
  - apply (card_info_truthy VNone VNone VNone VNone VNone VNone VNone).
Qed.

Lemma card_without_fields_gives_200_witness :
  ∃ info : gmap string value,
    mtg_card_tool (answers 200 (Some (cards_body (VList [VDict ∅]))))
      str_of_constant (card_request (VStr "Black Lotus")) [] =
      (Ok (jsonify (VDict info), 200), [lookup_call (VStr "Black Lotus")]) ∧
    dom info = card_info_keys ∧
    (∀ k, k ∈ card_info_keys → info !! k = Some VNone) ∧
    truthy (VDict info) = true.
Proof.
  apply (card_without_fields_gives_200
           (answers 200 (Some (cards_body (VList [VDict ∅]))))
           str_of_constant (card_request (VStr "Black Lotus"))
           (py_dict [("card_name", VStr "Black Lotus")]) (VStr "Black Lotus") []
           {| status_code := 200;
              body_json := Some (cards_body (VList [VDict ∅])) |}
           (py_dict [("cards", VList [VDict ∅])]) ∅ []);
    first [reflexivity | cbn; lia | intros k _; apply lookup_empty].
Defined.

(** * Further properties of the two functions *)

Lemma get_mtg_card_info_try net cn :
  get_mtg_card_info net cn = try_except (lookup_try_block net cn) lookup_except.
Proof. reflexivity. Qed.

Lemma status_not_error st :
  (400 <=? st)%Z && (st <? 600)%Z = false ↔ ¬ (400 ≤ st < 600).
Proof.
  rewrite andb_false_iff, Z.leb_gt, Z.ltb_ge. lia.
Qed.

Lemma truthy_dict_nonempty (c : gmap string value) :
  truthy (VDict c) = true ↔ c ≠ ∅.
Proof.
  cbn. rewrite negb_true_iff, Nat.eqb_neq. apply map_size_non_empty_iff.
Qed.

(** ** The lookup, outcome by outcome *)

Lemma getitem_int_0_cons x rest : getitem_int (VList (x :: rest)) 0 = Ok x.
Proof. reflexivity. Qed.

Lemma getitem_int_0_str c s :
  getitem_int (VStr (String c s)) 0 = Ok (VStr (String c EmptyString)).
Proof. reflexivity. Qed.


(** X1. The lookup returns a value other than [None] exactly when the
    upstream answers with a status outside 400..599 and a JSON object whose
    ['cards'] is an array that starts with an object; the value is then the
    CardInfo of that first object, and one outbound call was made. *)
Theorem lookup_finds_card_iff net cn log v log' :
  get_mtg_card_info net cn log = (Ok v, log') ∧ v ≠ VNone ↔
  log' = log ++ [lookup_call cn] ∧
  ∃ r d card rest,
    net (lookup_call cn) = inr r ∧
    ¬ (400 ≤ status_code r < 600) ∧
    body_json r = Some (VDict d) ∧
    d !! "cards" = Some (VList (VDict card :: rest)) ∧
    v = card_info_of card.
Proof.
  split.
  - intros [H Hv]. walk_lookup net Hnet Hst Hjson. apply status_not_error in Hst.
    destruct data; try by simplify_eq/=.
    cbn in H. destruct (d !! "cards") as [cards|] eqn:Hcards; [|by simplify_eq/=].
    cbn in H. destruct (negb (truthy cards)) eqn:Ht; [by simplify_eq/=|].
    destruct cards; try by simplify_eq/=.
    + destruct s; [done|]. rewrite getitem_int_0_str in H. by simplify_eq/=.
    + destruct l as [|x rest]; [done|]. rewrite getitem_int_0_cons in H.
      destruct x; try by simplify_eq/=.
      cbn in H. simplify_eq. split; [done|]. by exists r, d, d0, rest.
  - intros (-> & r & d & card & rest & Hnet & Hst & Hjson & Hcards & ->).
    split.
    + apply (lookup_found net cn log r d card rest Hnet
               (raise_for_status_ok r Hst) Hjson Hcards).
    + discriminate.
Qed.

Lemma lookup_finds_card_iff_witness :
  get_mtg_card_info (answers 302 (Some (cards_body (VList [VDict black_lotus]))))
    (VStr "Black Lotus") [] =
    (Ok (card_info_of black_lotus), [lookup_call (VStr "Black Lotus")])
  ∧ card_info_of black_lotus ≠ VNone.
Proof.
  apply (lookup_finds_card_iff
           (answers 302 (Some (cards_body (VList [VDict black_lotus]))))
           (VStr "Black Lotus") [] (card_info_of black_lotus)
           [lookup_call (VStr "Black Lotus")]).
  split; [reflexivity|].
  exists {| status_code := 302;
            body_json := Some (cards_body (VList [VDict black_lotus])) |},
         (py_dict [("cards", VList [VDict black_lotus])]), black_lotus, [].
  repeat split. cbn. lia.
Defined.

(** X2. The lookup returns [None] exactly in these cases: [requests.get]
    raises; the status is 4xx or 5xx (whatever the body); the body is not
    JSON; the body is an object whose ['cards'] is missing or falsy ([None],
    [False], [0], [""], [[]], [{}]); the body is an object whose ['cards']
    is a non-empty object. One outbound call was made in each. *)
Theorem lookup_returns_none_iff net cn log log' :
  get_mtg_card_info net cn log = (Ok VNone, log') ↔
  log' = log ++ [lookup_call cn] ∧
  ((∃ e, net (lookup_call cn) = inl e) ∨
   ∃ r, net (lookup_call cn) = inr r ∧
        (400 ≤ status_code r < 600 ∨
         body_json r = None ∨
         ∃ d, body_json r = Some (VDict d) ∧
              (truthy (default VNone (d !! "cards")) = false ∨
               ∃ c, d !! "cards" = Some (VDict c) ∧ c ≠ ∅))).
Proof.
  split.
  - intros H. pose proof (lookup_log net cn log) as Hlog. rewrite H in Hlog.
    cbn in Hlog. split; [done|]. clear Hlog.
    run_lookup_ops.
    destruct (net _) as [e|r] eqn:Hnet; [by eauto|]. right. exists r.
    split; [done|].
    destruct (_ && _) eqn:Hst.
    { left. apply andb_true_iff in Hst as [?%Z.leb_le ?%Z.ltb_lt]. lia. }
    right. destruct (body_json r) as [data|] eqn:Hjson; [|by left]. right.
    destruct data; try by simplify_eq/=.
    exists d. split; [done|].
    cbn in H. destruct (d !! "cards") as [cards|] eqn:Hcards; [|by left].
    cbn in H |- *. destruct (truthy cards) eqn:Ht; [|by left]. right.
    cbn in H. destruct cards; try by simplify_eq/=.
    + destruct s; [done|]. rewrite getitem_int_0_str in H. by simplify_eq/=.
    + destruct l as [|x rest]; [done|]. rewrite getitem_int_0_cons in H.
      destruct x; by simplify_eq/=.
    + exists d0. split; [done|]. by apply truthy_dict_nonempty.
  - intros [-> [[e Hnet]|(r & Hnet & [Hst|[Hjson|(d & Hjson & Hcards)]])]].
    + by apply lookup_network_failure with e.
    + by apply lookup_http_error with r.
    + by apply lookup_bad_json with r.
    + destruct Hcards as [Hf|(c & Hcards & Hc)].
      * by apply lookup_cards_falsy with r d.
      * run_lookup_ops. rewrite Hnet, Hjson. destruct (_ && _); [done|].
        cbn. rewrite Hcards. cbn. apply truthy_dict_nonempty in Hc. cbn in Hc.
        by rewrite Hc.
Qed.

Lemma lookup_returns_none_iff_witness :
  get_mtg_card_info
    (answers 200 (Some (cards_body (VDict (py_dict [("0", VDict black_lotus)])))))
    (VStr "Black Lotus") [] =
    (Ok VNone, [lookup_call (VStr "Black Lotus")]).
Proof.
  apply (lookup_returns_none_iff
           (answers 200
              (Some (cards_body (VDict (py_dict [("0", VDict black_lotus)])))))
           (VStr "Black Lotus") [] [lookup_call (VStr "Black Lotus")]).
  split; [reflexivity|]. right.
  eexists. split; [reflexivity|]. right. right.
  eexists. split; [reflexivity|]. right.
  eexists. split; [reflexivity|].
  apply truthy_dict_nonempty. reflexivity.
Defined.

(** X3. The lookup raises [TypeError] exactly when the upstream answers
    with a status outside 400..599 and a JSON object whose ['cards'] is a
    truthy [bool], [int] or [float]: [data['cards'][0]] subscripts it. *)
Theorem lookup_raises_type_error_iff net cn log log' :
  get_mtg_card_info net cn log = (Raise TypeError, log') ↔
  log' = log ++ [lookup_call cn] ∧
  ∃ r d cards,
    net (lookup_call cn) = inr r ∧
    ¬ (400 ≤ status_code r < 600) ∧
    body_json r = Some (VDict d) ∧
    d !! "cards" = Some cards ∧
    truthy cards = true ∧ is_scalar cards = true.
Proof.
  split.
  - intros H. walk_lookup net Hnet Hst Hjson. apply status_not_error in Hst.
    destruct data; try by simplify_eq/=.
    cbn in H. destruct (d !! "cards") as [cards|] eqn:Hcards; [|by simplify_eq/=].
    cbn in H. destruct (truthy cards) eqn:Ht; [|by simplify_eq/=].
    cbn in H. destruct cards; try by simplify_eq/=.
    + simplify_eq/=. split; [done|]. by eexists r, d, _.
    + simplify_eq/=. split; [done|]. by eexists r, d, _.
    + simplify_eq/=. split; [done|]. by eexists r, d, _.
    + destruct s; [done|]. rewrite getitem_int_0_str in H. by simplify_eq/=.
    + destruct l as [|x rest]; [done|]. rewrite getitem_int_0_cons in H.
      destruct x; by simplify_eq/=.
  - intros (-> & r & d & cards & Hnet & Hst & Hjson & Hcards & Ht & Hs).
    run_lookup_ops. rewrite Hnet. apply status_not_error in Hst. rewrite Hst, Hjson.
    cbn. rewrite Hcards. cbn. rewrite Ht. cbn.
    by destruct cards.
Qed.

Lemma lookup_raises_type_error_iff_witness :
  get_mtg_card_info (answers 200 (Some (cards_body (VBool true))))
    (VStr "Black Lotus") [] =
    (Raise TypeError, [lookup_call (VStr "Black Lotus")]).
Proof.
  apply (lookup_raises_type_error_iff
           (answers 200 (Some (cards_body (VBool true))))
           (VStr "Black Lotus") [] [lookup_call (VStr "Black Lotus")]).
  split; [reflexivity|].
  exists {| status_code := 200; body_json := Some (cards_body (VBool true)) |},
         (py_dict [("cards", VBool true)]), (VBool true).
  repeat split. cbn. lia.
Defined.

(** X4. The lookup raises [AttributeError] exactly when the upstream answers
    with a status outside 400..599 and a body that is JSON but not an object
    ([data.get] fails), or an object whose ['cards'] is a non-empty [str] or
    an array whose first element is not an object ([card_data.get]
    fails). *)
Theorem lookup_raises_attribute_error_iff net cn log log' :
  get_mtg_card_info net cn log = (Raise AttributeError, log') ↔
  log' = log ++ [lookup_call cn] ∧
  ∃ r data,
    net (lookup_call cn) = inr r ∧
    ¬ (400 ≤ status_code r < 600) ∧
    body_json r = Some data ∧
    (is_dict data = false ∨
     ∃ d cards,
       data = VDict d ∧ d !! "cards" = Some cards ∧ truthy cards = true ∧
       ((∃ s, cards = VStr s) ∨
        ∃ x rest, cards = VList (x :: rest) ∧ is_dict x = false)).
Proof.
  split.
  - intros H. walk_lookup net Hnet Hst Hjson. apply status_not_error in Hst.
    destruct data;
      try (simplify_eq/=; split; [done|]; eexists _, _; by eauto 10).
    cbn in H. destruct (d !! "cards") as [cards|] eqn:Hcards; [|by simplify_eq/=].
    cbn in H. destruct (truthy cards) eqn:Ht; [|by simplify_eq/=].
    cbn in H. destruct cards; try by simplify_eq/=.
    + destruct s; [done|]. rewrite getitem_int_0_str in H. simplify_eq. split; [done|].
      exists r, (VDict d). repeat (split; [done|]). right.
      eexists d, _. repeat (split; [done|]). left. by eexists.
    + destruct l as [|x rest]; [done|]. rewrite getitem_int_0_cons in H.
      destruct x; try by simplify_eq/=.
      all: simplify_eq/=; split; [done|]; exists r, (VDict d);
        repeat (split; [done|]); right; eexists d, _;
        repeat (split; [done|]); right; by eexists _, _.
  - intros (-> & r & data & Hnet & Hst & Hjson & Hcase).
    run_lookup_ops. rewrite Hnet. apply status_not_error in Hst. rewrite Hst, Hjson.
    destruct Hcase as [Hd|(d & cards & -> & Hcards & Ht & Hcase)].
    + by destruct data.
    + cbn. rewrite Hcards. cbn. rewrite Ht. cbn.
      destruct Hcase as [[s ->]|(x & rest & -> & Hx)].
      * destruct s; [done|]. by rewrite getitem_int_0_str.
      * rewrite getitem_int_0_cons. by destruct x.
Qed.

Lemma lookup_raises_attribute_error_iff_witness :
  get_mtg_card_info (answers 200 (Some (VList []))) (VStr "Black Lotus") [] =
    (Raise AttributeError, [lookup_call (VStr "Black Lotus")]).
Proof.
  apply (lookup_raises_attribute_error_iff
           (answers 200 (Some (VList [])))
           (VStr "Black Lotus") [] [lookup_call (VStr "Black Lotus")]).
  split; [reflexivity|].
  exists {| status_code := 200; body_json := Some (VList []) |}, (VList []).
  repeat split; [cbn; lia|]. by left.
Defined.

(** X5. Inside the [try] block, [KeyError] is raised exactly when ['cards']
    is a non-empty object (the subscript [0] is not one of its keys), and
    [IndexError] is never raised: a truthy array or [str] has an element
    [0]. *)
Theorem try_block_key_error_only_for_cards_object net cn log log' :
  (lookup_try_block net cn log = (Raise KeyError, log') ↔
     log' = log ++ [lookup_call cn] ∧
     ∃ r d c, net (lookup_call cn) = inr r ∧
              ¬ (400 ≤ status_code r < 600) ∧
              body_json r = Some (VDict d) ∧
              d !! "cards" = Some (VDict c) ∧ c ≠ ∅)
  ∧ lookup_try_block net cn log ≠ (Raise IndexError, log').
Proof.
  split; [split|].
  - run_try_block. intros H.
    destruct (net _) as [e|r] eqn:Hnet; [by simplify_eq|].
    destruct (_ && _) eqn:Hst; [by simplify_eq|].
    apply status_not_error in Hst.
    destruct (body_json r) as [data|] eqn:Hjson; [|by simplify_eq].
    destruct data; try by simplify_eq.
    cbn in H. destruct (d !! "cards") as [cards|] eqn:Hcards; [|by simplify_eq].
    cbn in H. destruct (negb (truthy cards)) eqn:Ht; [by simplify_eq|].
    apply negb_false_iff in Ht.
    destruct cards; try by simplify_eq.
    + cbn in H. repeat (case_match; simplify_eq/=).
    + cbn in H. repeat (case_match; simplify_eq/=).
    + simplify_eq. split; [done|]. apply truthy_dict_nonempty in Ht.
      eauto 10.
  - intros (-> & r & d & c & Hnet & Hst & Hjson & Hcards & Hc).
    run_try_block. rewrite Hnet. apply status_not_error in Hst. rewrite Hst, Hjson.
    cbn. rewrite Hcards. cbn. apply truthy_dict_nonempty in Hc. cbn in Hc.
    by rewrite Hc.
  - run_try_block. intros H.
    destruct (net _) as [e|r] eqn:Hnet; [by simplify_eq|].
    destruct (_ && _) eqn:Hst; [by simplify_eq|].
    destruct (body_json r) as [data|] eqn:Hjson; [|by simplify_eq].
    destruct data; try by simplify_eq.
    cbn in H. destruct (d !! "cards") as [cards|] eqn:Hcards; [|by simplify_eq].
    cbn in H. destruct (negb (truthy cards)) eqn:Ht; [by simplify_eq|].
    apply negb_false_iff in Ht.
    destruct cards; try by simplify_eq.
    + destruct s; [done|]. cbn in H. by simplify_eq.
    + destruct l; [done|]. cbn in H. repeat (case_match; simplify_eq/=).
Qed.

(** ** The handler, answer by answer *)

(** X6. When the handler returns, its status is one of 200, 400, 404, 405
    and 415; it is 405 exactly when the method is not POST, and 415 exactly
    when the method is POST and the content type is not JSON. *)
Theorem tool_status_table net py_str req log resp st log' :
  mtg_card_tool net py_str req log = (Ok (resp, st), log') →
  (st = 200 ∨ st = 400 ∨ st = 404 ∨ st = 405 ∨ st = 415) ∧
  (st = 405 ↔ method req ≠ "POST") ∧
  (st = 415 ↔ method req = "POST" ∧ is_json req = false).
Proof.
  intros H.
  walk_tool req net log Hm Hj Hbody Ht Hin Hkey Hret;
    try destruct (truthy card_data); simplify_eq/=;
    (split; [lia|]); split; split; try done; try lia; try (by intros [? ?]).
Qed.

Lemma tool_status_table_witness :
  (404 = 200 ∨ 404 = 400 ∨ 404 = 404 ∨ 404 = 405 ∨ 404 = 415) ∧
  (404 = 405 ↔ method (card_request (VStr "Nonexistent Card XYZ")) ≠ "POST") ∧
  (404 = 415 ↔
     method (card_request (VStr "Nonexistent Card XYZ")) = "POST" ∧
     is_json (card_request (VStr "Nonexistent Card XYZ")) = false).
Proof.
  apply (tool_status_table (answers 200 (Some (cards_body (VList []))))
           str_of_constant (card_request (VStr "Nonexistent Card XYZ")) []
           (jsonify (error_payload
              "Card 'Nonexistent Card XYZ' not found or API is unavailable."))
           404 [lookup_call (VStr "Nonexistent Card XYZ")]).
  reflexivity.
Defined.

Lemma getitem_str_ok v k x :
  getitem_str v k = Ok x ↔ ∃ d, v = VDict d ∧ d !! k = Some x.
Proof.
  split.
  - destruct v; try done. cbn. destruct (d !! k) eqn:Hk; [|done].
    intros [= ->]. by exists d.
  - intros (d & -> & Hk). cbn. by rewrite Hk.
Qed.

(** X7. A request answered 400, 405 or 415 causes no outbound call; a
    request answered 200 or 404 causes exactly one, for the value under
    ['card_name'] in its body, which is a JSON object. *)
Theorem tool_calls_upstream_iff_found_or_missing
    net py_str req log resp st log' :
  mtg_card_tool net py_str req log = (Ok (resp, st), log') →
  ((st = 200 ∨ st = 404) ∧
   ∃ b cn, get_json_silent req = Some (VDict b) ∧ b !! "card_name" = Some cn ∧
           log' = log ++ [lookup_call cn])
  ∨ ((st = 400 ∨ st = 405 ∨ st = 415) ∧ log' = log).
Proof.
  intros H.
  walk_tool req net log Hm Hj Hbody Ht Hin Hkey Hret;
    try (by simplify_eq/=);
    try (simplify_eq/=; right; split; [lia|done]).
  left. apply getitem_str_ok in Hkey as (b & -> & Hkey).
  pose proof (lookup_log net cn log) as Hlog. rewrite Hret in Hlog.
  cbn in Hlog. subst log1.
  destruct (truthy card_data); simplify_eq/=; (split; [lia|]); by exists b, cn.
Qed.

Lemma tool_calls_upstream_iff_found_or_missing_witness :
  ((400 = 200 ∨ 400 = 404) ∧
   ∃ b cn, get_json_silent (post_json (VDict ∅)) = Some (VDict b) ∧
           b !! "card_name" = Some cn ∧ [] = [] ++ [lookup_call cn])
  ∨ ((400 = 400 ∨ 400 = 405 ∨ 400 = 415) ∧ @nil call = []).
Proof.
  apply (tool_calls_upstream_iff_found_or_missing
           (answers 200 (Some (cards_body (VList [VDict black_lotus]))))
           str_of_constant (post_json (VDict ∅)) []
           (jsonify (error_payload "Missing 'card_name' in JSON payload."))
           400 []).
  reflexivity.
Defined.

(** X8. Whatever the request and the upstream, whether the handler returns
    or raises, it keeps the calls already logged and adds at most one, a
    GET on the card search URL with the single parameter [name]: there is
    no retry. *)
Theorem tool_makes_at_most_one_call net py_str req log :
  ∃ calls,
    (mtg_card_tool net py_str req log).2 = log ++ calls ∧
    (length calls ≤ 1)%nat ∧
    ∀ c, c ∈ calls → url c = base_url ∧ ∃ cn, params c = [("name", cn)].
Proof.
  assert (Hnone : ∀ l : list call,
            l = log →
            ∃ calls, l = log ++ calls ∧ (length calls ≤ 1)%nat ∧
              ∀ c, c ∈ calls → url c = base_url ∧ ∃ cn, params c = [("name", cn)]).
  { intros l ->. exists []. rewrite app_nil_r. split; [done|].
    split; [cbn; lia|]. by intros c ?%elem_of_nil. }
  walk_tool req net log Hm Hj Hbody Ht Hin Hkey Hret;
    try (apply Hnone; reflexivity).
  all: pose proof (lookup_log net cn log) as Hlog; rewrite Hret in Hlog;
    cbn in Hlog; subst log1; exists [lookup_call cn].
  all: split; [try (destruct (truthy card_data)); reflexivity|].
  all: split; [cbn; lia|].
  all: intros c Hc; apply list_elem_of_singleton in Hc; subst c.
  all: split; [done|by exists cn].
Qed.

Lemma card_info_no_error_key a b c d e f g :
  ∃ m, card_info a b c d e f g = VDict m ∧ m !! "error" = None.
Proof.
  eexists. split; [reflexivity|].
  unfold py_dict. cbn [fold_left fst snd]. by simplify_map_eq.
Qed.

(** X9. A body sent with status 200 is an object without the key
    ['error']; a body sent with any other status is an object with the key
    ['error'] alone, bound to a string. *)
Theorem tool_error_key_tells_failure net py_str req log body st log' :
  mtg_card_tool net py_str req log = (Ok (jsonify body, st), log') →
  (st = 200 ∧ ∃ m : gmap string value, body = VDict m ∧ m !! "error" = None)
  ∨ (st ≠ 200 ∧ ∃ msg, body = VDict {[ "error" := VStr msg ]}).
Proof.
  intros H.
  assert (Herr : ∀ msg code,
            body = error_payload msg → st = code → code ≠ 200 →
            (st = 200 ∧
             ∃ m : gmap string value, body = VDict m ∧ m !! "error" = None)
            ∨ (st ≠ 200 ∧ ∃ msg', body = VDict {[ "error" := VStr msg' ]})).
  { intros msg code -> -> Hcode. right. split; [done|]. by exists msg. }
  assert (Hok : ∀ cn log1,
            get_mtg_card_info net cn log = (Ok body, log1) →
            truthy body = true → st = 200 →
            (st = 200 ∧
             ∃ m : gmap string value, body = VDict m ∧ m !! "error" = None)
            ∨ (st ≠ 200 ∧ ∃ msg', body = VDict {[ "error" := VStr msg' ]})).
  { intros cn log1 Hret Htruthy ->. left. split; [done|].
    destruct (lookup_returns net cn log body log1 Hret) as [->|[card ->]];
      [done|].
    exact (card_info_no_error_key (field card "name") (field card "manaCost")
             (field card "type") (field card "text") (field card "power")
             (field card "toughness") (field card "imageUrl")). }
  revert Herr Hok.
  generalize ((st = 200 ∧
               ∃ m : gmap string value, body = VDict m ∧ m !! "error" = None)
              ∨ (st ≠ 200 ∧ ∃ msg', body = VDict {[ "error" := VStr msg' ]})).
  intros P Herr Hok.
  walk_tool req net log Hm Hj Hbody Ht Hin Hkey Hret;
    try (injection H as <- <- <-; eapply Herr; [reflexivity|reflexivity|lia]);
    try discriminate H.
  destruct (truthy card_data) eqn:Htruthy; injection H as <- <- <-.
  - by eapply Hok.
  - eapply Herr; [reflexivity|reflexivity|lia].
Qed.

Lemma tool_error_key_tells_failure_witness :
  (200 = 200 ∧
   ∃ m : gmap string value,
     card_info_of black_lotus = VDict m ∧ m !! "error" = None)
  ∨ (200 ≠ 200 ∧
     ∃ msg, card_info_of black_lotus = VDict {[ "error" := VStr msg ]}).
Proof.
  apply (tool_error_key_tells_failure
           (answers 200 (Some (cards_body (VList [VDict black_lotus]))))
           str_of_constant (card_request (VStr "Black Lotus")) []
           (card_info_of black_lotus) 200 [lookup_call (VStr "Black Lotus")]).
  reflexivity.
Defined.

(** X10. The handler answers 400 exactly when the method is POST, the
    content type is JSON and the body does not parse, is falsy ([null],
    [false], [0], [""], [[]], [{}]), is an object without the key
    ['card_name'], an array without the element ["card_name"], or a string
    without the substring [card_name]; the body of the answer is
    [{"error": "Missing 'card_name' in JSON payload."}] and no outbound call
    is made. *)
Theorem tool_answers_400_iff net py_str req log resp log' :
  mtg_card_tool net py_str req log = (Ok (resp, 400), log') ↔
  method req = "POST" ∧ is_json req = true ∧ log' = log ∧
  resp = jsonify (VDict {[ "error" :=
                    VStr "Missing 'card_name' in JSON payload." ]}) ∧
  match get_json_silent req with
  | None => True
  | Some v =>
      truthy v = false ∨
      match v with
      | VDict d => d !! "card_name" = None
      | VList l => existsb (str_eq "card_name") l = false
      | VStr s => is_substring "card_name" s = false
      | _ => False
      end
  end.
Proof.
  split.
  - intros H.
    walk_tool req net log Hm Hj Hbody Ht Hin Hkey Hret;
      try discriminate H;
      try (by destruct (truthy card_data)).
    + injection H as <- <-. repeat (split; [done|]). right.
      destruct v; try done; cbn in Hin; injection Hin as Hin; try done.
      by destruct (d !! "card_name").
    + injection H as <- <-. repeat (split; [done|]). by left.
    + by injection H as <- <-.
  - intros (Hm & Hj & -> & -> & Hbody).
    by apply tool_missing_card_name.
Qed.

Lemma tool_answers_400_iff_witness :
  mtg_card_tool (fails ConnectionError) str_of_constant
    (post_json (VList [VStr "Black Lotus"])) [] =
    (Ok (jsonify (VDict {[ "error" :=
           VStr "Missing 'card_name' in JSON payload." ]}), 400), []).
Proof.
  apply (tool_answers_400_iff (fails ConnectionError) str_of_constant
           (post_json (VList [VStr "Black Lotus"])) []).
  repeat split. right. reflexivity.
Defined.

(** X11. The handler raises exactly when the method is POST, the content
    type is JSON, the body parses to a truthy value, and either the body is
    a [bool], [int] or [float] (the [in] test fails), or an array holding
    ["card_name"] or a string containing it (the test passes and the
    subscript ["card_name"] fails), all three with [TypeError] and no
    outbound call; or the body is an object with the key and the lookup of
    its value raises. *)
Theorem tool_raises_iff net py_str req log e log' :
  mtg_card_tool net py_str req log = (Raise e, log') ↔
  method req = "POST" ∧ is_json req = true ∧
  ∃ v, get_json_silent req = Some v ∧ truthy v = true ∧
    ((e = TypeError ∧ log' = log ∧
      (is_scalar v = true ∨
       (∃ l, v = VList l ∧ existsb (str_eq "card_name") l = true) ∨
       (∃ s, v = VStr s ∧ is_substring "card_name" s = true)))
     ∨ ∃ b cn, v = VDict b ∧ b !! "card_name" = Some cn ∧
               get_mtg_card_info net cn log = (Raise e, log')).
Proof.
  split.
  - intros H.
    walk_tool req net log Hm Hj Hbody Ht Hin Hkey Hret;
      try (by simplify_eq/=);
      try (by destruct (truthy card_data); simplify_eq/=).
    + simplify_eq/=. apply getitem_str_ok in Hkey as (b & -> & Hkey).
      repeat (split; [done|]). eexists. repeat (split; [done|]).
      right. by exists b, cn.
    + simplify_eq/=. repeat (split; [done|]). eexists.
      repeat (split; [done|]). left.
      destruct v; simplify_eq/=.
      * split; [done|]. split; [done|]. right. right. by eexists.
      * split; [done|]. split; [done|]. right. left. by eexists.
      * by destruct (d !! "card_name").
    + simplify_eq/=. repeat (split; [done|]). eexists.
      repeat (split; [done|]). left. by destruct v; simplify_eq/=; auto.
  - intros (Hm & Hj & v & Hbody & Ht & Hcase). run_tool.
    rewrite Hm, Hj, Hbody. cbn -[truthy contains_str getitem_str]. rewrite Ht.
    cbn [negb].
    destruct Hcase as [(-> & -> & [Hs|[(l & -> & Hl)|(s & -> & Hs)]])
                      |(b & cn & -> & Hkey & Hret)].
    + by destruct v.
    + cbn. by rewrite Hl.
    + cbn. by rewrite Hs.
    + cbn. rewrite Hkey. cbn. by rewrite Hret.
Qed.

Lemma tool_raises_iff_witness :
  mtg_card_tool (fails ConnectionError) str_of_constant
    (post_json (VList [VStr "card_name"])) [] = (Raise TypeError, []).
Proof.
  apply (tool_raises_iff (fails ConnectionError) str_of_constant
           (post_json (VList [VStr "card_name"])) [] TypeError []).
  repeat split. exists (VList [VStr "card_name"]). repeat split.
  left. repeat split. right. left. by eexists.
Defined.

(** X12. When the upstream answers with a 4xx or 5xx status, a request that
    carries ['card_name'] is answered 404 with the not-found message,
    whatever the body of the upstream answer, a well-formed ['cards'] array
    included. *)
Theorem upstream_http_error_gives_404 net py_str req b cn log r :
  method req = "POST" →
  is_json req = true →
  get_json_silent req = Some (VDict b) →
  b !! "card_name" = Some cn →
  net (lookup_call cn) = inr r →
  400 ≤ status_code r < 600 →
  mtg_card_tool net py_str req log =
    (Ok (jsonify (VDict {[ "error" :=
           VStr ("Card '" +:+ format_value py_str cn +:+
                 "' not found or API is unavailable.") ]}), 404),
     log ++ [lookup_call cn]).
Proof.
  intros Hm Hj Hbody Hkey Hnet Hst.
  rewrite (tool_with_card_name net py_str req b cn log Hm Hj Hbody Hkey).
  by rewrite (lookup_http_error net cn log r Hnet Hst).
Qed.

Lemma upstream_http_error_gives_404_witness :
  mtg_card_tool (answers 503 (Some (cards_body (VList [VDict black_lotus]))))
    str_of_constant (card_request (VStr "Black Lotus")) [] =
    (Ok (jsonify (VDict {[ "error" :=
           VStr "Card 'Black Lotus' not found or API is unavailable." ]}), 404),
     [lookup_call (VStr "Black Lotus")]).
Proof.
  apply (upstream_http_error_gives_404
           (answers 503 (Some (cards_body (VList [VDict black_lotus]))))
           str_of_constant (card_request (VStr "Black Lotus"))
           (py_dict [("card_name", VStr "Black Lotus")]) (VStr "Black Lotus") []
           {| status_code := 503;
              body_json := Some (cards_body (VList [VDict black_lotus])) |});
    first [reflexivity | cbn; lia].
Defined.

(** X13. The answer to a found card depends on the upstream answer only
    through the seven fields read from the first element of ['cards']: two
    upstream answers whose first cards agree on them, a missing field
    counting as [None], get the same answer, whatever their status (outside
    400..599), their other cards, and the other keys of the card and of the
    body. *)
Theorem answer_depends_only_on_first_card_fields
    net1 net2 py_str req b cn log r1 r2 d1 d2 card1 card2 rest1 rest2 :
  method req = "POST" →
  is_json req = true →
  get_json_silent req = Some (VDict b) →
  b !! "card_name" = Some cn →
  net1 (lookup_call cn) = inr r1 →
  net2 (lookup_call cn) = inr r2 →
  ¬ (400 ≤ status_code r1 < 600) →
  ¬ (400 ≤ status_code r2 < 600) →
  body_json r1 = Some (VDict d1) →
  body_json r2 = Some (VDict d2) →
  d1 !! "cards" = Some (VList (VDict card1 :: rest1)) →
  d2 !! "cards" = Some (VList (VDict card2 :: rest2)) →
  (∀ k, k ∈ card_source_keys →
        default VNone (card1 !! k) = default VNone (card2 !! k)) →
  mtg_card_tool net1 py_str req log = mtg_card_tool net2 py_str req log.
Proof.
  intros Hm Hj Hbody Hkey Hnet1 Hnet2 Hst1 Hst2 Hjson1 Hjson2 Hc1 Hc2 Hsame.
  rewrite !(tool_with_card_name _ py_str req b cn log Hm Hj Hbody Hkey).
  rewrite (lookup_found net1 cn log r1 d1 card1 rest1 Hnet1
             (raise_for_status_ok r1 Hst1) Hjson1 Hc1).
  rewrite (lookup_found net2 cn log r2 d2 card2 rest2 Hnet2
             (raise_for_status_ok r2 Hst2) Hjson2 Hc2).
  unfold card_info_of, field.
  rewrite !Hsame by (unfold card_source_keys; set_solver).
  reflexivity.
Qed.

Lemma answer_depends_only_on_first_card_fields_witness :
  mtg_card_tool (answers 200 (Some (cards_body (VList [VDict black_lotus]))))
    str_of_constant (card_request (VStr "Black Lotus")) [] =
  mtg_card_tool
    (answers 203 (Some (cards_body (VList [VDict black_lotus; VDict ∅; VInt 5]))))
    str_of_constant (card_request (VStr "Black Lotus")) [].
Proof.
  apply (answer_depends_only_on_first_card_fields
           (answers 200 (Some (cards_body (VList [VDict black_lotus]))))
           (answers 203
              (Some (cards_body (VList [VDict black_lotus; VDict ∅; VInt 5]))))
           str_of_constant (card_request (VStr "Black Lotus"))
           (py_dict [("card_name", VStr "Black Lotus")]) (VStr "Black Lotus") []
           {| status_code := 200;
              body_json := Some (cards_body (VList [VDict black_lotus])) |}
           {| status_code := 203;
              body_json :=
                Some (cards_body (VList [VDict black_lotus; VDict ∅; VInt 5])) |}
           (py_dict [("cards", VList [VDict black_lotus])])
           (py_dict [("cards", VList [VDict black_lotus; VDict ∅; VInt 5])])
           black_lotus black_lotus [] [VDict ∅; VInt 5]);
    first [reflexivity | cbn; lia].
Defined.
